(** * appengine/identity.go: identity, hostname, token and signing accessors

    A shallow embedding of package [appengine]'s file [identity.go] and the
    properties of its functions.  Every function of the file is a few lines
    of glue around the injected [Context] and the [appengine_internal]
    runtime package; the embedding keeps those interactions as events of a
    small program monad, and a run against an arbitrary platform records
    them in a trace. *)

From stdpp Require Import gmap strings list.
From Stdlib Require Import ZArith.
From Stdlib.Strings Require Import String Ascii Byte.

Local Open Scope string_scope.
Local Open Scope Z_scope.

(** ** Go values used by the file *)

Module Go.

(** A Go slice is either [nil] or a (possibly empty) sequence of elements. *)
Definition slice (A : Type) : Type := option (list A).

Definition nil_slice {A : Type} : slice A := None.

(** The elements a [for ... range] loop visits: none for a nil slice. *)
Definition elems {A : Type} (s : slice A) : list A :=
  match s with
  | None => []
  | Some l => l
  end.

(** [len(s)]. *)
Definition len {A : Type} (s : slice A) : nat := List.length (elems s).

(** [append(s, x)]: appending to a nil slice allocates a one-element slice. *)
Definition append {A : Type} (s : slice A) (x : A) : slice A :=
  Some (elems s ++ [x])%list.

(** [[]byte(s)]: the bytes of a string. *)
Definition bytes_of_string (s : string) : slice byte :=
  Some (list_byte_of_string s).

(** [strings.HasPrefix(s, prefix)]. *)
Fixpoint HasPrefix (s prefix : string) : bool :=
  match prefix, s with
  | EmptyString, _ => true
  | String _ _, EmptyString => false
  | String p prefix', String c s' => Ascii.eqb p c && HasPrefix s' prefix'
  end.

(** [strings.Index(s, sep)]: the index of the first instance of [sep] in
    [s], or [-1] when [sep] does not occur in [s]. *)
Fixpoint Index (s sep : string) : Z :=
  if HasPrefix s sep then 0
  else match s with
       | EmptyString => -1
       | String _ s' =>
           let i := Index s' sep in
           if i =? -1 then -1 else i + 1
       end.

(** [s[:i]]: [None] stands for the run-time panic of an index out of
    range. *)
Definition slice_to (s : string) (i : Z) : option string :=
  if (0 <=? i) && (i <=? Z.of_nat (String.length s))
  then Some (substring 0 (Z.to_nat i) s)
  else None.

(** The two ways the file makes a [time.Time]: the zero value
    [time.Time{}] and [time.Unix(sec, nsec)], the instant [sec] seconds and
    [nsec] nanoseconds after the Unix epoch. *)
Inductive Time : Type :=
| Time_zero
| Unix (sec nsec : Z).

(** Run-time panics the file's code can raise. *)
Inductive panic : Type :=
| nil_dereference
| slice_out_of_range.

End Go.

Import Go.

(** ** Protocol messages *)

(** Modelled from the spec: the request and response messages, whose
    "schemas are owned by the external service layer".  The generated
    packages [appengine_internal/modules] (imported as [modpb]) and
    [appengine_internal/app_identity] (imported as [pb]) are proto2
    bindings: an optional scalar field is a pointer (here an [option]), a
    repeated field is a slice, and the getter [GetF] of an optional field
    returns the field's value, or the zero value of its type when the field
    is unset.  Only the fields [identity.go] reads or writes are kept. *)

Module modpb.

Record GetHostnameRequest : Type := {
  GetHostnameRequest_Module : option string;
  GetHostnameRequest_Version : option string;
  GetHostnameRequest_Instance : option string
}.

Record GetHostnameResponse : Type := {
  GetHostnameResponse_Hostname : option string
}.

(** [&modpb.GetHostnameRequest{}] and [&modpb.GetHostnameResponse{}]. *)
Definition GetHostnameRequest_zero : GetHostnameRequest :=
  {| GetHostnameRequest_Module := None;
     GetHostnameRequest_Version := None;
     GetHostnameRequest_Instance := None |}.

Definition GetHostnameResponse_zero : GetHostnameResponse :=
  {| GetHostnameResponse_Hostname := None |}.

(** The assignments [req.Module = &module] and its two siblings. *)
Definition set_Module (v : string) (r : GetHostnameRequest) : GetHostnameRequest :=
  {| GetHostnameRequest_Module := Some v;
     GetHostnameRequest_Version := GetHostnameRequest_Version r;
     GetHostnameRequest_Instance := GetHostnameRequest_Instance r |}.

Definition set_Version (v : string) (r : GetHostnameRequest) : GetHostnameRequest :=
  {| GetHostnameRequest_Module := GetHostnameRequest_Module r;
     GetHostnameRequest_Version := Some v;
     GetHostnameRequest_Instance := GetHostnameRequest_Instance r |}.

Definition set_Instance (v : string) (r : GetHostnameRequest) : GetHostnameRequest :=
  {| GetHostnameRequest_Module := GetHostnameRequest_Module r;
     GetHostnameRequest_Version := GetHostnameRequest_Version r;
     GetHostnameRequest_Instance := Some v |}.

End modpb.

Module pb.

Record GetAccessTokenRequest : Type := {
  GetAccessTokenRequest_Scope : slice string
}.

Record GetAccessTokenResponse : Type := {
  GetAccessTokenResponse_AccessToken : option string;
  GetAccessTokenResponse_ExpirationTime : option Z
}.

Definition GetAccessTokenResponse_zero : GetAccessTokenResponse :=
  {| GetAccessTokenResponse_AccessToken := None;
     GetAccessTokenResponse_ExpirationTime := None |}.

(** [res.GetAccessToken()] and [res.GetExpirationTime()]. *)
Definition GetAccessToken (m : GetAccessTokenResponse) : string :=
  default "" (GetAccessTokenResponse_AccessToken m).

Definition GetExpirationTime (m : GetAccessTokenResponse) : Z :=
  default 0 (GetAccessTokenResponse_ExpirationTime m).

Record PublicCertificate : Type := {
  PublicCertificate_KeyName : option string;
  PublicCertificate_X509CertificatePem : option string
}.

(** The getters of [*PublicCertificate] accept a nil receiver: the list
    of a response holds pointers, and a nil entry reads as all-unset. *)
Definition GetKeyName (m : option PublicCertificate) : string :=
  default "" (m ≫= PublicCertificate_KeyName).

Definition GetX509CertificatePem (m : option PublicCertificate) : string :=
  default "" (m ≫= PublicCertificate_X509CertificatePem).

Record GetPublicCertificateForAppRequest : Type := { }.

Record GetPublicCertificateForAppResponse : Type := {
  GetPublicCertificateForAppResponse_PublicCertificateList :
    slice (option PublicCertificate)
}.

Definition GetPublicCertificateForAppRequest_zero
  : GetPublicCertificateForAppRequest := Build_GetPublicCertificateForAppRequest.

Definition GetPublicCertificateForAppResponse_zero
  : GetPublicCertificateForAppResponse :=
  {| GetPublicCertificateForAppResponse_PublicCertificateList := nil_slice |}.

Record GetServiceAccountNameRequest : Type := { }.

Record GetServiceAccountNameResponse : Type := {
  GetServiceAccountNameResponse_ServiceAccountName : option string
}.

Definition GetServiceAccountNameRequest_zero
  : GetServiceAccountNameRequest := Build_GetServiceAccountNameRequest.

Definition GetServiceAccountNameResponse_zero : GetServiceAccountNameResponse :=
  {| GetServiceAccountNameResponse_ServiceAccountName := None |}.

Definition GetServiceAccountName (m : GetServiceAccountNameResponse) : string :=
  default "" (GetServiceAccountNameResponse_ServiceAccountName m).

Record SignForAppRequest : Type := {
  SignForAppRequest_BytesToSign : slice byte
}.

Record SignForAppResponse : Type := {
  SignForAppResponse_KeyName : option string;
  SignForAppResponse_SignatureBytes : slice byte
}.

Definition SignForAppResponse_zero : SignForAppResponse :=
  {| SignForAppResponse_KeyName := None;
     SignForAppResponse_SignatureBytes := nil_slice |}.

Definition SignForApp_GetKeyName (m : SignForAppResponse) : string :=
  default "" (SignForAppResponse_KeyName m).

Definition GetSignatureBytes (m : SignForAppResponse) : slice byte :=
  SignForAppResponse_SignatureBytes m.

End pb.

(** The message types a [Call] of this file carries, and the Rocq type of
    the values of each ([proto.Message] is an interface in the source). *)
Inductive message : Type :=
| GetHostnameRequest
| GetHostnameResponse
| GetAccessTokenRequest
| GetAccessTokenResponse
| GetPublicCertificateForAppRequest
| GetPublicCertificateForAppResponse
| GetServiceAccountNameRequest
| GetServiceAccountNameResponse
| SignForAppRequest
| SignForAppResponse.

Definition msg (t : message) : Type :=
  match t with
  | GetHostnameRequest => modpb.GetHostnameRequest
  | GetHostnameResponse => modpb.GetHostnameResponse
  | GetAccessTokenRequest => pb.GetAccessTokenRequest
  | GetAccessTokenResponse => pb.GetAccessTokenResponse
  | GetPublicCertificateForAppRequest => pb.GetPublicCertificateForAppRequest
  | GetPublicCertificateForAppResponse => pb.GetPublicCertificateForAppResponse
  | GetServiceAccountNameRequest => pb.GetServiceAccountNameRequest
  | GetServiceAccountNameResponse => pb.GetServiceAccountNameResponse
  | SignForAppRequest => pb.SignForAppRequest
  | SignForAppResponse => pb.SignForAppResponse
  end.

(** [type Certificate struct { KeyName string; Data []byte }]. *)
Record Certificate : Type := {
  KeyName : string;
  Data : slice byte
}.


(** ** The injected context and the runtime package *)

Module appengine_internal.

(** Modelled from the spec: [CallOptions], the type of the last argument of
    [Context.Call], which carries the timeout of a call
    ([struct { Timeout time.Duration }]).  [identity.go] always passes
    [nil]: "no timeouts set locally". *)
Record CallOptions : Type := {
  Timeout : Z
}.

End appengine_internal.

Section Identity.

(** Go's [error] is an interface: the non-nil error values are an arbitrary
    type [Err], and [nil] is [None].  [Request] is what [c.Request()]
    returns, an [interface{}] the file only passes on. *)
Context {Err Request : Type}.

(** The generated tables [pb.AppIdentityServiceError_ErrorCode_name] and
    [modpb.ModulesServiceError_ErrorCode_name] ([map[int32]string]). *)
Variable AppIdentityServiceError_ErrorCode_name : gmap Z string.
Variable ModulesServiceError_ErrorCode_name : gmap Z string.

Definition error : Type := option Err.

(** Everything the file asks of the outside: the three methods of the
    injected [Context] it uses, and the functions of [appengine_internal]
    it delegates to.  An event is indexed by the type of its answer.
    [Call] writes the response into [out] and returns an [error]; its
    answer is the content of [out] after the call, with that error. *)
Inductive Event : Type -> Type :=
| Call (service method : string) (i o : message) (in_ : msg i) (out : msg o)
    (opts : option appengine_internal.CallOptions) : Event (msg o * error)
| Request_ : Event Request
| FullyQualifiedAppID : Event string
| internal_AppID (fullyQualifiedAppID : string) : Event string
| internal_BackendInstance : Event Z
| internal_BackendHostname (name : string) (index : Z) : Event string
| internal_DefaultVersionHostname (req : Request) : Event string
| internal_ModuleName (req : Request) : Event string
| internal_VersionID (req : Request) : Event string
| internal_InstanceID : Event string
| internal_Datacenter : Event string
| internal_ServerSoftware : Event string
| internal_RequestID (req : Request) : Event string
| internal_RegisterErrorCodeMap (service : string) (m : gmap Z string) : Event unit.

(** A Go function body: it returns, panics, or asks the outside for
    something and goes on with the answer. *)
Inductive Prog (A : Type) : Type :=
| Ret (a : A)
| Panic (p : panic)
| Vis (X : Type) (e : Event X) (k : X -> Prog A).

Arguments Ret {A} a.
Arguments Panic {A} p.
Arguments Vis {A X} e k.

Fixpoint bind {A B : Type} (p : Prog A) (f : A -> Prog B) : Prog B :=
  match p with
  | Ret a => f a
  | Panic q => Panic q
  | Vis e k => Vis e (fun x => bind (k x) f)
  end.

#[global] Instance Prog_ret : MRet Prog := @Ret.
#[global] Instance Prog_bind : MBind Prog := fun A B f p => bind p f.

Definition trigger {X : Type} (e : Event X) : Prog X := Vis e Ret.

(** [*p]: dereferencing a nil pointer panics. *)
Definition deref {A : Type} (p : option A) : Prog A :=
  match p with
  | Some a => Ret a
  | None => Panic nil_dereference
  end.

(** [s[:i]] with its bounds check. *)
Definition slice_to_ (s : string) (i : Z) : Prog string :=
  match slice_to s i with
  | Some t => Ret t
  | None => Panic slice_out_of_range
  end.

(** ** The functions of identity.go, in the order of the file *)

Definition AppID : Prog string :=
  fq ← trigger FullyQualifiedAppID;
  trigger (internal_AppID fq).

Definition VersionID : Prog string :=
  r ← trigger Request_;
  trigger (internal_VersionID r).

Definition BackendInstance : Prog (string * Z) :=
  let name := "" in
  index ← trigger internal_BackendInstance;
  if index =? -1 then mret (name, index)
  else
    name ← VersionID;
    let i := Index name "." in
    if i >? -1
    then name ← slice_to_ name i; mret (name, index)
    else mret (name, index).

Definition BackendHostname (name : string) (index : Z) : Prog string :=
  trigger (internal_BackendHostname name index).

Definition DefaultVersionHostname : Prog string :=
  r ← trigger Request_;
  trigger (internal_DefaultVersionHostname r).

Definition ModuleName : Prog string :=
  r ← trigger Request_;
  trigger (internal_ModuleName r).

Definition ModuleHostname (module version instance : string) : Prog (string * error) :=
  let req := modpb.GetHostnameRequest_zero in
  let req := if negb (String.eqb module "") then modpb.set_Module module req else req in
  let req := if negb (String.eqb version "") then modpb.set_Version version req else req in
  let req := if negb (String.eqb instance "") then modpb.set_Instance instance req else req in
  let res := modpb.GetHostnameResponse_zero in
  '(res, err) ← trigger (Call "modules" "GetHostname"
                           GetHostnameRequest GetHostnameResponse req res None);
  match err with
  | Some _ => mret ("", err)
  | None =>
      hostname ← deref (modpb.GetHostnameResponse_Hostname res);
      mret (hostname, None)
  end.

Definition InstanceID : Prog string := trigger internal_InstanceID.

Definition Datacenter : Prog string := trigger internal_Datacenter.

Definition ServerSoftware : Prog string := trigger internal_ServerSoftware.

Definition RequestID : Prog string :=
  r ← trigger Request_;
  trigger (internal_RequestID r).

Definition AccessToken (scopes : slice string) : Prog (string * Time * error) :=
  let req := {| pb.GetAccessTokenRequest_Scope := scopes |} in
  let res := pb.GetAccessTokenResponse_zero in
  '(res, err) ← trigger (Call "app_identity_service" "GetAccessToken"
                           GetAccessTokenRequest GetAccessTokenResponse req res None);
  match err with
  | Some _ => mret ("", Time_zero, err)
  | None => mret (pb.GetAccessToken res, Unix (pb.GetExpirationTime res) 0, None)
  end.

(** The body of the [range] loop of [PublicCertificates]. *)
Definition append_certificate (cs : slice Certificate)
    (pc : option pb.PublicCertificate) : slice Certificate :=
  append cs {| KeyName := pb.GetKeyName pc;
               Data := bytes_of_string (pb.GetX509CertificatePem pc) |}.

Definition PublicCertificates : Prog (slice Certificate * error) :=
  let req := pb.GetPublicCertificateForAppRequest_zero in
  let res := pb.GetPublicCertificateForAppResponse_zero in
  '(res, err) ← trigger (Call "app_identity_service" "GetPublicCertificatesForApp"
                           GetPublicCertificateForAppRequest
                           GetPublicCertificateForAppResponse req res None);
  match err with
  | Some _ => mret (nil_slice, err)
  | None =>
      let cs := nil_slice in
      let cs := fold_left append_certificate
                  (elems (pb.GetPublicCertificateForAppResponse_PublicCertificateList res))
                  cs in
      mret (cs, None)
  end.

Definition ServiceAccount : Prog (string * error) :=
  let req := pb.GetServiceAccountNameRequest_zero in
  let res := pb.GetServiceAccountNameResponse_zero in
  '(res, err) ← trigger (Call "app_identity_service" "GetServiceAccountName"
                           GetServiceAccountNameRequest
                           GetServiceAccountNameResponse req res None);
  match err with
  | Some _ => mret ("", err)
  | None => mret (pb.GetServiceAccountName res, err)
  end.

Definition SignBytes (bytes : slice byte) : Prog (string * slice byte * error) :=
  let req := {| pb.SignForAppRequest_BytesToSign := bytes |} in
  let res := pb.SignForAppResponse_zero in
  '(res, err) ← trigger (Call "app_identity_service" "SignForApp"
                           SignForAppRequest SignForAppResponse req res None);
  match err with
  | Some _ => mret ("", nil_slice, err)
  | None => mret (pb.SignForApp_GetKeyName res, pb.GetSignatureBytes res, None)
  end.

Definition init : Prog unit :=
  _ ← trigger (internal_RegisterErrorCodeMap "app_identity_service"
                 AppIdentityServiceError_ErrorCode_name);
  trigger (internal_RegisterErrorCodeMap "modules"
             ModulesServiceError_ErrorCode_name).

(** ** Running a function against a platform *)

Section Run.

(** The platform is an arbitrary state [S] with a [handle]r answering each
    event and moving to a next state: the implementation of the context's
    methods and of the runtime functions is not part of this file. *)
Variable S : Type.
Variable handle : forall X : Type, Event X -> S -> X * S.

(** The state a run goes through: the platform's, and the process-wide
    table of error-code names kept by [appengine_internal]. *)
Record World : Type := {
  platform : S;
  errorCodeMaps : gmap string (gmap Z string)
}.

Inductive Outcome (A : Type) : Type :=
| Returns (a : A)
| Panics (p : panic).

Arguments Returns {A} a.
Arguments Panics {A} p.

Definition Outcome_map {A B : Type} (f : A -> B) (o : Outcome A) : Outcome B :=
  match o with
  | Returns a => Returns (f a)
  | Panics p => Panics p
  end.

(** What is observed of a run: how it ended, the world it left, and the
    events it issued, oldest first. *)
Record Run (A : Type) : Type := {
  outcome : Outcome A;
  final : World;
  events : list (sigT Event)
}.

Arguments outcome {A} r.
Arguments final {A} r.
Arguments events {A} r.

(** Modelled from the spec: [appengine_internal.RegisterErrorCodeMap], which
    is not in this file; the "registration of error-code name tables" stores
    the table under the service's name, [errorCodeMaps[service] = m].  No
    other event touches the table. *)
Definition register {X : Type} (e : Event X)
    (r : gmap string (gmap Z string)) : gmap string (gmap Z string) :=
  match e with
  | internal_RegisterErrorCodeMap service m => <[service := m]> r
  | _ => r
  end.

(** The answer of the platform to [e] in world [w], and the world after. *)
Definition answer {X : Type} (e : Event X) (w : World) : X :=
  (handle X e (platform w)).1.

Definition after {X : Type} (e : Event X) (w : World) : World :=
  {| platform := (handle X e (platform w)).2;
     errorCodeMaps := register e (errorCodeMaps w) |}.

Fixpoint run {A : Type} (p : Prog A) (w : World) : Run A :=
  match p with
  | Ret a => {| outcome := Returns a; final := w; events := [] |}
  | Panic q => {| outcome := Panics q; final := w; events := [] |}
  | Vis e k =>
      let r := run (k (answer e w)) (after e w) in
      {| outcome := outcome r; final := final r;
         events := existT _ e :: events r |}
  end.

(** The events of a run that are a [c.Call]. *)
Definition is_Call (ev : sigT Event) : bool :=
  match projT2 ev with
  | Call _ _ _ _ _ _ _ => true
  | _ => false
  end.

Definition calls {A : Type} (r : Run A) : list (sigT Event) :=
  List.filter is_Call (events r).

(** A function that "invokes a single RPC call through the injected
    context per invocation". *)
Definition single_Call {A : Type} (p : Prog A) : Prop :=
  forall w : World, List.length (calls (run p w)) = 1%nat.

(** A function whose "only effect is its single call through the injected
    context": all it issues is one event, a [c.Call]. *)
Definition only_effect_single_Call {A : Type} (p : Prog A) : Prop :=
  forall w : World, exists ev, is_Call ev = true /\ events (run p w) = [ev].

(** A function that makes no [c.Call] at all. *)
Definition no_Call {A : Type} (p : Prog A) : Prop :=
  forall w : World, calls (run p w) = [].

(** A function that leaves the process-wide table of error-code names as it
    found it. *)
Definition preserves_errorCodeMaps {A : Type} (p : Prog A) : Prop :=
  forall w : World, errorCodeMaps (final (run p w)) = errorCodeMaps w.

End Run.

(** ** Vocabulary of the specification *)

(** The call each of the five RPC functions makes: its service and method
    names, the request, the empty response it passes, and [nil] options. *)
Definition GetHostname_call (req : modpb.GetHostnameRequest) :=
  Call "modules" "GetHostname" GetHostnameRequest GetHostnameResponse
    req modpb.GetHostnameResponse_zero None.

Definition GetAccessToken_call (req : pb.GetAccessTokenRequest) :=
  Call "app_identity_service" "GetAccessToken"
    GetAccessTokenRequest GetAccessTokenResponse
    req pb.GetAccessTokenResponse_zero None.

Definition GetPublicCertificatesForApp_call :=
  Call "app_identity_service" "GetPublicCertificatesForApp"
    GetPublicCertificateForAppRequest GetPublicCertificateForAppResponse
    pb.GetPublicCertificateForAppRequest_zero
    pb.GetPublicCertificateForAppResponse_zero None.

Definition GetServiceAccountName_call :=
  Call "app_identity_service" "GetServiceAccountName"
    GetServiceAccountNameRequest GetServiceAccountNameResponse
    pb.GetServiceAccountNameRequest_zero
    pb.GetServiceAccountNameResponse_zero None.

Definition SignForApp_call (req : pb.SignForAppRequest) :=
  Call "app_identity_service" "SignForApp"
    SignForAppRequest SignForAppResponse
    req pb.SignForAppResponse_zero None.

(** A request field that is "set if and only if the corresponding argument
    is non-empty". *)
Definition set_iff_nonempty (arg : string) : option string :=
  if decide (arg = "") then None else Some arg.

Definition hostname_request (module version instance : string)
  : modpb.GetHostnameRequest :=
  {| modpb.GetHostnameRequest_Module := set_iff_nonempty module;
     modpb.GetHostnameRequest_Version := set_iff_nonempty version;
     modpb.GetHostnameRequest_Instance := set_iff_nonempty instance |}.

(** The [Certificate] record of a response entry: its key name, and the
    bytes of its X.509 PEM string. *)
Definition certificate_of (pc : option pb.PublicCertificate) : Certificate :=
  {| KeyName := pb.GetKeyName pc;
     Data := bytes_of_string (pb.GetX509CertificatePem pc) |}.

(** A string "truncated at the first '.' character (or the full string if
    it contains no '.')". *)
Fixpoint before_dot (s : string) : string :=
  match s with
  | EmptyString => EmptyString
  | String c s' => if Ascii.eqb c "." then EmptyString else String c (before_dot s')
  end.

Definition has_dot (s : string) : Prop :=
  exists a b : string, s = a ++ "." ++ b.

End Identity.

Arguments Ret {Err Request A} a.
Arguments Panic {Err Request A} p.
Arguments Vis {Err Request A X} e k.
Arguments World S : clear implicits.
Arguments platform {S} w.
Arguments errorCodeMaps {S} w.
Arguments Returns {A} a.
Arguments Panics {A} p.
Arguments Run {Err Request} S A.
Arguments outcome {Err Request S A} r.
Arguments final {Err Request S A} r.
Arguments events {Err Request S A} r.
Arguments answer {Err Request S} handle {X} e w.
Arguments after {Err Request S} handle {X} e w.
Arguments run {Err Request S} handle {A} p w.
Arguments calls {Err Request S A} r.
Arguments single_Call {Err Request S} handle {A} p.
Arguments only_effect_single_Call {Err Request S} handle {A} p.
Arguments no_Call {Err Request S} handle {A} p.
Arguments preserves_errorCodeMaps {Err Request S} handle {A} p.

(** ** Example platforms

    Concrete platforms on which the functions can be evaluated: errors are
    strings, the request is a token, and the state counts the events
    answered.  [respond] is what a [Call] does with the response it is
    handed, [index] the backend-instance index the runtime reports. *)

Module Example.

Definition certificates : list (option pb.PublicCertificate) :=
  [ Some {| pb.PublicCertificate_KeyName := Some "key-1";
            pb.PublicCertificate_X509CertificatePem := Some "PEM-1" |};
    None;
    Some {| pb.PublicCertificate_KeyName := Some "key-2";
            pb.PublicCertificate_X509CertificatePem := None |} ].

Definition populated (o : message) (out : msg o) : msg o :=
  match o return msg o -> msg o with
  | GetHostnameResponse => fun _ =>
      {| modpb.GetHostnameResponse_Hostname := Some "v1.mod.app.appspot.com" |}
  | GetAccessTokenResponse => fun _ =>
      {| pb.GetAccessTokenResponse_AccessToken := Some "ya29.token";
         pb.GetAccessTokenResponse_ExpirationTime := Some 1446336000 |}
  | GetPublicCertificateForAppResponse => fun _ =>
      {| pb.GetPublicCertificateForAppResponse_PublicCertificateList :=
           Some certificates |}
  | GetServiceAccountNameResponse => fun _ =>
      {| pb.GetServiceAccountNameResponse_ServiceAccountName :=
           Some "app@appspot.gserviceaccount.com" |}
  | SignForAppResponse => fun _ =>
      {| pb.SignForAppResponse_KeyName := Some "key-1";
         pb.SignForAppResponse_SignatureBytes := Some [x01; x02]%byte |}
  | _ => fun out => out
  end out.

(** A call that succeeds and fills the response. *)
Definition succeeds (o : message) (out : msg o) : msg o * option string :=
  (populated o out, None).

(** A call that succeeds and leaves the response as it was handed over. *)
Definition succeeds_empty (o : message) (out : msg o) : msg o * option string :=
  (out, None).

(** A call that fails, after having written to the response. *)
Definition fails (o : message) (out : msg o) : msg o * option string :=
  (populated o out, Some "deadline exceeded").

Definition handle (respond : forall o : message, msg o -> msg o * option string)
    (index : Z) (versionID : string)
    (X : Type) (e : @Event string unit X) (s : nat) : X * nat :=
  (match e in Event X return X with
   | Call _ _ _ o _ out _ => respond o out
   | Request_ => tt
   | FullyQualifiedAppID => "s~example.com:appid"
   | internal_AppID fq => fq
   | internal_BackendInstance => index
   | internal_BackendHostname name _ => name
   | internal_DefaultVersionHostname _ => "appid.appspot.com"
   | internal_ModuleName _ => "default"
   | internal_VersionID _ => versionID
   | internal_InstanceID => "00c61b117c"
   | internal_Datacenter => "us1"
   | internal_ServerSoftware => "Development/1.0"
   | internal_RequestID _ => "5600a1"
   | internal_RegisterErrorCodeMap _ _ => tt
   end, Datatypes.S s).

(** Backend instance 3 of version "v1.234", with calls of each kind, and a
    frontend instance (index -1). *)
Definition working := handle succeeds 3 "v1.234".

Definition unfilled := handle succeeds_empty 3 "v1.234".

Definition failing := handle fails 3 "v1.234".

Definition frontend := handle succeeds (-1) "v1.234".

Definition world : World nat := {| platform := 0%nat; errorCodeMaps := ∅ |}.

End Example.

(** ** Further vocabulary *)

(** [string(b)]: the string of the bytes of a slice. *)
Definition string_of_bytes (b : slice byte) : string :=
  string_of_list_byte (elems b).

(** The request of an event, when the event is a [Call] carrying a
    [GetHostnameRequest]. *)
Definition sent_GetHostnameRequest {Err Request : Type}
    (ev : sigT (@Event Err Request)) : option modpb.GetHostnameRequest :=
  match projT2 ev with
  | Call _ _ i _ in_ _ _ =>
      match i return msg i -> option modpb.GetHostnameRequest with
      | GetHostnameRequest => fun req => Some req
      | _ => fun _ => None
      end in_
  | _ => None
  end.

(** ** Strings: the first '.' *)

Lemma HasPrefix_dot (c : ascii) (s : string) :
  HasPrefix (String c s) "." = Ascii.eqb c ".".
Proof.
  simpl. rewrite Ascii.eqb_sym. destruct s; apply andb_true_r.
Qed.

Lemma Index_dot_cons (c : ascii) (s : string) :
  Index (String c s) "." =
  if Ascii.eqb c "." then 0
  else if Index s "." =? -1 then -1 else Index s "." + 1.
Proof.
  change (Index (String c s) ".") with
    (if HasPrefix (String c s) "." then 0
     else if Index s "." =? -1 then -1 else Index s "." + 1).
  now rewrite HasPrefix_dot.
Qed.

Lemma Index_dot_range (s : string) :
  -1 <= Index s "." <= Z.of_nat (String.length s).
Proof.
  induction s as [|c s IH].
  - simpl. lia.
  - rewrite Index_dot_cons. cbn [String.length].
    destruct (Ascii.eqb c "."); [lia|].
    destruct (Z.eqb_spec (Index s ".") (-1)); lia.
Qed.

Lemma has_dot_cons (c : ascii) (s : string) :
  has_dot (String c s) <-> c = "."%char \/ has_dot s.
Proof.
  split.
  - intros (a & b & Hab). destruct a as [|c' a]; cbn in Hab.
    + left. now inversion Hab.
    + right. exists a, b. now inversion Hab.
  - intros [-> | (a & b & ->)].
    + exists "", s. reflexivity.
    + exists (String c a), b. reflexivity.
Qed.

Lemma not_has_dot_empty : ~ has_dot "".
Proof.
  intros (a & b & Hab). destruct a; discriminate.
Qed.

Lemma Index_dot_absent (s : string) :
  Index s "." = -1 <-> ~ has_dot s.
Proof.
  induction s as [|c s IH].
  - split; [intros _; apply not_has_dot_empty | reflexivity].
  - rewrite Index_dot_cons, has_dot_cons.
    pose proof (Index_dot_range s) as Hr.
    destruct (Ascii.eqb_spec c ".") as [-> | Hc].
    + split; [lia | intros H; exfalso; apply H; now left].
    + destruct (Z.eqb_spec (Index s ".") (-1)) as [Hi | Hi].
      * split; [|reflexivity]. intros _ [? | Hd]; [done|]. now apply IH.
      * split; [lia|]. intros H. exfalso. apply Hi, IH. tauto.
Qed.

Lemma slice_to_in_range (s : string) (i : Z) :
  0 <= i <= Z.of_nat (String.length s) ->
  slice_to s i = Some (substring 0 (Z.to_nat i) s).
Proof.
  intros Hi. unfold slice_to.
  destruct (Z.leb_spec 0 i); [|lia].
  destruct (Z.leb_spec i (Z.of_nat (String.length s))); [reflexivity|lia].
Qed.

Lemma slice_to_Index_dot (s : string) :
  Index s "." <> -1 -> slice_to s (Index s ".") = Some (before_dot s).
Proof.
  induction s as [|c s IH].
  - simpl. congruence.
  - rewrite Index_dot_cons. cbn [before_dot].
    pose proof (Index_dot_range s) as Hr.
    destruct (Ascii.eqb c "."); [reflexivity|].
    destruct (Z.eqb_spec (Index s ".") (-1)) as [Hi | Hi]; [congruence|].
    intros _. specialize (IH Hi).
    rewrite slice_to_in_range in IH by lia.
    rewrite slice_to_in_range by (cbn [String.length]; lia).
    injection IH as IH.
    replace (Z.to_nat (Index s "." + 1))
      with (Datatypes.S (Z.to_nat (Index s "."))) by lia.
    simpl. now rewrite IH.
Qed.

Lemma before_dot_full (s : string) :
  ~ has_dot s -> before_dot s = s.
Proof.
  induction s as [|c s IH]; [reflexivity|].
  rewrite has_dot_cons. intros H. simpl.
  destruct (Ascii.eqb_spec c ".") as [-> | _]; [tauto|].
  rewrite IH; tauto.
Qed.

Lemma before_dot_split (s : string) :
  has_dot s -> exists rest : string, s = before_dot s ++ "." ++ rest.
Proof.
  induction s as [|c s IH].
  - intros H. destruct (not_has_dot_empty H).
  - rewrite has_dot_cons. intros H. simpl.
    destruct (Ascii.eqb_spec c ".") as [-> | Hc].
    + exists s. reflexivity.
    + destruct H as [? | H]; [done|].
      destruct (IH H) as [rest Hrest]. exists rest.
      rewrite Hrest at 1. reflexivity.
Qed.

Lemma before_dot_no_dot (s : string) : ~ has_dot (before_dot s).
Proof.
  induction s as [|c s IH]; simpl.
  - apply not_has_dot_empty.
  - destruct (Ascii.eqb_spec c ".") as [-> | Hc].
    + apply not_has_dot_empty.
    + rewrite has_dot_cons. tauto.
Qed.

(** ** Slices: the loop of PublicCertificates *)

Lemma fold_append_certificate (l : list (option pb.PublicCertificate))
    (cs : slice Certificate) :
  elems (fold_left append_certificate l cs) =
  (elems cs ++ map certificate_of l)%list.
Proof.
  revert cs. induction l as [|pc l IH]; intros cs; simpl.
  - now rewrite app_nil_r.
  - rewrite IH. unfold append_certificate at 1. simpl.
    now rewrite <- app_assoc.
Qed.

Lemma hostname_request_built (module version instance : string) :
  (let req := modpb.GetHostnameRequest_zero in
   let req := if negb (String.eqb module "") then modpb.set_Module module req else req in
   let req := if negb (String.eqb version "") then modpb.set_Version version req else req in
   let req := if negb (String.eqb instance "") then modpb.set_Instance instance req else req in
   req) = hostname_request module version instance.
Proof.
  unfold hostname_request, set_iff_nonempty.
  destruct module, version, instance; simpl; repeat case_decide;
    try discriminate; try congruence; reflexivity.
Qed.

(** ** What a run of each function is *)

Section Properties.

Context {Err Request S : Type}.
Variable handle : forall X : Type, @Event Err Request X -> S -> X * S.

Implicit Types (w : World S) (e : Err).

Lemma run_ask {X A : Type} (ev : Event X) (k : X -> Prog A) w :
  run handle (trigger ev ≫= k) w =
  let r := run handle (k (answer handle ev w)) (after handle ev w) in
  {| outcome := outcome r; final := final r;
     events := existT X ev :: events r |}.
Proof. reflexivity. Qed.

Lemma run_trigger {X : Type} (ev : Event X) w :
  run handle (trigger ev) w =
  {| outcome := Returns (answer handle ev w); final := after handle ev w;
     events := [existT X ev] |}.
Proof. reflexivity. Qed.

(** Splits on the answer of the one call a function makes. *)
Ltac split_answer :=
  cbv zeta; rewrite run_ask;
  unfold GetHostname_call, GetAccessToken_call, GetPublicCertificatesForApp_call,
    GetServiceAccountName_call, SignForApp_call;
  cbv zeta;
  match goal with
  | |- context [@answer _ _ _ handle ?X ?call ?w] =>
      let a := fresh "a" in
      pose (a := @answer _ _ _ handle X call w);
      repeat match goal with
        | |- context [@answer _ _ _ handle ?Y call w] =>
            change (@answer _ _ _ handle Y call w) with a
        end;
      clearbody a; destruct a as [? [?|]]
  end; cbn.

Lemma run_ModuleHostname (module version instance : string) w :
  run handle (ModuleHostname module version instance) w =
  let call := GetHostname_call (hostname_request module version instance) in
  {| outcome :=
       match (answer handle call w).2 with
       | Some e => Returns ("", Some e)
       | None =>
           match modpb.GetHostnameResponse_Hostname (answer handle call w).1 with
           | Some hostname => Returns (hostname, None)
           | None => Panics nil_dereference
           end
       end;
     final := after handle call w;
     events := [existT _ call] |}.
Proof.
  pose proof (hostname_request_built module version instance) as Hreq.
  cbv zeta in Hreq. unfold ModuleHostname. cbv zeta. rewrite Hreq.
  split_answer; [reflexivity|].
  destruct (modpb.GetHostnameResponse_Hostname _); reflexivity.
Qed.

Lemma run_AccessToken (scopes : slice string) w :
  run handle (AccessToken scopes) w =
  let call := GetAccessToken_call {| pb.GetAccessTokenRequest_Scope := scopes |} in
  {| outcome :=
       match (answer handle call w).2 with
       | Some e => Returns ("", Time_zero, Some e)
       | None =>
           Returns (pb.GetAccessToken (answer handle call w).1,
                    Unix (pb.GetExpirationTime (answer handle call w).1) 0,
                    None)
       end;
     final := after handle call w;
     events := [existT _ call] |}.
Proof.
  unfold AccessToken.
  split_answer; reflexivity.
Qed.

Lemma run_PublicCertificates w :
  run handle PublicCertificates w =
  let call := GetPublicCertificatesForApp_call in
  {| outcome :=
       match (answer handle call w).2 with
       | Some e => Returns (nil_slice, Some e)
       | None =>
           Returns
             (fold_left append_certificate
                (elems (pb.GetPublicCertificateForAppResponse_PublicCertificateList
                          (answer handle call w).1))
                nil_slice,
              None)
       end;
     final := after handle call w;
     events := [existT _ call] |}.
Proof.
  unfold PublicCertificates.
  split_answer; reflexivity.
Qed.

Lemma run_ServiceAccount w :
  run handle ServiceAccount w =
  let call := GetServiceAccountName_call in
  {| outcome :=
       match (answer handle call w).2 with
       | Some e => Returns ("", Some e)
       | None => Returns (pb.GetServiceAccountName (answer handle call w).1, None)
       end;
     final := after handle call w;
     events := [existT _ call] |}.
Proof.
  unfold ServiceAccount.
  split_answer; reflexivity.
Qed.

Lemma run_SignBytes (bytes : slice byte) w :
  run handle (SignBytes bytes) w =
  let call := SignForApp_call {| pb.SignForAppRequest_BytesToSign := bytes |} in
  {| outcome :=
       match (answer handle call w).2 with
       | Some e => Returns ("", nil_slice, Some e)
       | None =>
           Returns (pb.SignForApp_GetKeyName (answer handle call w).1,
                    pb.GetSignatureBytes (answer handle call w).1,
                    None)
       end;
     final := after handle call w;
     events := [existT _ call] |}.
Proof.
  unfold SignBytes.
  split_answer; reflexivity.
Qed.

Lemma run_BackendInstance w :
  run handle BackendInstance w =
  let index := answer handle internal_BackendInstance w in
  let w1 := after handle internal_BackendInstance w in
  if index =? -1
  then {| outcome := Returns ("", index); final := w1;
          events := [existT _ internal_BackendInstance] |}
  else
    let r := answer handle Request_ w1 in
    let w2 := after handle Request_ w1 in
    let versionID := answer handle (internal_VersionID r) w2 in
    {| outcome := Returns (before_dot versionID, index);
       final := after handle (internal_VersionID r) w2;
       events := [existT _ internal_BackendInstance; existT _ Request_;
                  existT _ (internal_VersionID r)] |}.
Proof.
  unfold BackendInstance, VersionID. cbv zeta. rewrite run_ask. cbv zeta.
  destruct (answer handle internal_BackendInstance w =? -1); [reflexivity|].
  cbn.
  set (v := answer handle (internal_VersionID _) _).
  pose proof (Index_dot_range v) as Hr.
  destruct (Z.gtb_spec (Index v ".") (-1)) as [Hi | Hi].
  - unfold slice_to_. rewrite slice_to_Index_dot by lia. reflexivity.
  - cbn. rewrite before_dot_full; [reflexivity|].
    apply Index_dot_absent. lia.
Qed.

Lemma run_VersionID w :
  run handle VersionID w =
  let r := answer handle Request_ w in
  let w1 := after handle Request_ w in
  {| outcome := Returns (answer handle (internal_VersionID r) w1);
     final := after handle (internal_VersionID r) w1;
     events := [existT _ Request_; existT _ (internal_VersionID r)] |}.
Proof. reflexivity. Qed.

(** ** Errors of the call *)

(** C1. Whatever error value [e] the context's [Call] returns, each of
    ModuleHostname, AccessToken, PublicCertificates, ServiceAccount and
    SignBytes returns normally, and the error it returns is that same [e]. *)
Theorem Call_error_returned_unchanged w e :
  (forall module version instance,
     (answer handle (GetHostname_call (hostname_request module version instance)) w).2
       = Some e ->
     Outcome_map snd (outcome (run handle (ModuleHostname module version instance) w))
       = Returns (Some e)) /\
  (forall scopes,
     (answer handle
        (GetAccessToken_call {| pb.GetAccessTokenRequest_Scope := scopes |}) w).2
       = Some e ->
     Outcome_map snd (outcome (run handle (AccessToken scopes) w))
       = Returns (Some e)) /\
  ((answer handle GetPublicCertificatesForApp_call w).2 = Some e ->
   Outcome_map snd (outcome (run handle PublicCertificates w)) = Returns (Some e)) /\
  ((answer handle GetServiceAccountName_call w).2 = Some e ->
   Outcome_map snd (outcome (run handle ServiceAccount w)) = Returns (Some e)) /\
  (forall bytes,
     (answer handle
        (SignForApp_call {| pb.SignForAppRequest_BytesToSign := bytes |}) w).2
       = Some e ->
     Outcome_map snd (outcome (run handle (SignBytes bytes) w))
       = Returns (Some e)).
Proof.
  repeat split; intros.
  - rewrite run_ModuleHostname. cbv zeta. cbn [outcome]. now rewrite H.
  - rewrite run_AccessToken. cbv zeta. cbn [outcome]. now rewrite H.
  - rewrite run_PublicCertificates. cbv zeta. cbn [outcome]. now rewrite H.
  - rewrite run_ServiceAccount. cbv zeta. cbn [outcome]. now rewrite H.
  - rewrite run_SignBytes. cbv zeta. cbn [outcome]. now rewrite H.
Qed.

(** C8. When the call returns an error, every other result is the zero
    value of its type: the empty string and the zero [time.Time] for
    AccessToken, a nil slice for PublicCertificates, the empty string for
    ModuleHostname and ServiceAccount, the empty string and a nil byte
    slice for SignBytes. *)
Theorem Call_error_zero_results w e :
  (forall module version instance,
     (answer handle (GetHostname_call (hostname_request module version instance)) w).2
       = Some e ->
     outcome (run handle (ModuleHostname module version instance) w)
       = Returns ("", Some e)) /\
  (forall scopes,
     (answer handle
        (GetAccessToken_call {| pb.GetAccessTokenRequest_Scope := scopes |}) w).2
       = Some e ->
     outcome (run handle (AccessToken scopes) w)
       = Returns ("", Time_zero, Some e)) /\
  ((answer handle GetPublicCertificatesForApp_call w).2 = Some e ->
   outcome (run handle PublicCertificates w) = Returns (nil_slice, Some e)) /\
  ((answer handle GetServiceAccountName_call w).2 = Some e ->
   outcome (run handle ServiceAccount w) = Returns ("", Some e)) /\
  (forall bytes,
     (answer handle
        (SignForApp_call {| pb.SignForAppRequest_BytesToSign := bytes |}) w).2
       = Some e ->
     outcome (run handle (SignBytes bytes) w)
       = Returns ("", nil_slice, Some e)).
Proof.
  repeat split; intros.
  - rewrite run_ModuleHostname. cbv zeta. cbn [outcome]. now rewrite H.
  - rewrite run_AccessToken. cbv zeta. cbn [outcome]. now rewrite H.
  - rewrite run_PublicCertificates. cbv zeta. cbn [outcome]. now rewrite H.
  - rewrite run_ServiceAccount. cbv zeta. cbn [outcome]. now rewrite H.
  - rewrite run_SignBytes. cbv zeta. cbn [outcome]. now rewrite H.
Qed.

(** ** Results of a successful call *)

(** C2. After a successful call whose response lists N public
    certificates, PublicCertificates returns N [Certificate] records in the
    order of the response, the i-th with the key name of the i-th entry and
    the bytes of its X.509 PEM string, and a nil error: the records are the
    entries, mapped one by one. *)
Theorem PublicCertificates_records w :
  let res := answer handle GetPublicCertificatesForApp_call w in
  let entries :=
    elems (pb.GetPublicCertificateForAppResponse_PublicCertificateList res.1) in
  res.2 = None ->
  exists cs : slice Certificate,
    outcome (run handle PublicCertificates w) = Returns (cs, None) /\
    len cs = List.length entries /\
    elems cs = map certificate_of entries /\
    forall (i : nat) (pc : option pb.PublicCertificate),
      entries !! i = Some pc ->
      exists c : Certificate,
        elems cs !! i = Some c /\
        KeyName c = pb.GetKeyName pc /\
        Data c = bytes_of_string (pb.GetX509CertificatePem pc).
Proof.
  intros res entries Hok.
  exists (fold_left append_certificate entries nil_slice).
  assert (Hcs : elems (fold_left append_certificate entries nil_slice)
                = map certificate_of entries)
    by now rewrite fold_append_certificate.
  split; [|split; [|split]].
  - rewrite run_PublicCertificates. cbv zeta. cbn [outcome].
    fold res. now rewrite Hok.
  - unfold len. now rewrite Hcs, length_map.
  - exact Hcs.
  - intros i pc Hi. exists (certificate_of pc). rewrite Hcs.
    split; [|split; reflexivity].
    now rewrite list_lookup_fmap, Hi.
Qed.

(** C3, as amended.  ModuleHostname sends one GetHostname request to the "modules"
    service; each of its Module, Version and Instance fields is set exactly
    when the corresponding argument is non-empty, and then to that argument.
    When the call succeeds and the response carries a hostname, that
    hostname is returned with a nil error. *)
Theorem ModuleHostname_request_and_result (module version instance : string) w :
  let req := hostname_request module version instance in
  let r := run handle (ModuleHostname module version instance) w in
  (forall x, modpb.GetHostnameRequest_Module req = Some x <-> x = module /\ module <> "") /\
  (forall x, modpb.GetHostnameRequest_Version req = Some x <-> x = version /\ version <> "") /\
  (forall x, modpb.GetHostnameRequest_Instance req = Some x <-> x = instance /\ instance <> "") /\
  events r = [existT _ (GetHostname_call req)] /\
  forall hostname : string,
    (answer handle (GetHostname_call req) w).2 = None ->
    modpb.GetHostnameResponse_Hostname (answer handle (GetHostname_call req) w).1
      = Some hostname ->
    outcome r = Returns (hostname, None).
Proof.
  intros req r.
  assert (Hset : forall arg x, set_iff_nonempty arg = Some x <-> x = arg /\ arg <> "").
  { intros arg x. unfold set_iff_nonempty. case_decide; split.
    - discriminate.
    - tauto.
    - intros [= ->]. tauto.
    - intros [-> _]. reflexivity. }
  split; [apply Hset|]. split; [apply Hset|]. split; [apply Hset|].
  subst r. rewrite run_ModuleHostname. cbv zeta. fold req.
  split; [reflexivity|].
  intros hostname Hok Hh. cbn [outcome]. now rewrite Hok, Hh.
Qed.

(** C10. ModuleHostname dereferences the response's Hostname without a nil
    check: after a successful call it returns exactly when the field is
    set, and panics on the nil dereference, rather than returning an error,
    when the field is unset. *)
Theorem ModuleHostname_nil_Hostname_panics (module version instance : string) w :
  let call := GetHostname_call (hostname_request module version instance) in
  let r := run handle (ModuleHostname module version instance) w in
  (answer handle call w).2 = None ->
  (modpb.GetHostnameResponse_Hostname (answer handle call w).1 = None ->
   outcome r = Panics nil_dereference) /\
  (forall hostname : string,
     modpb.GetHostnameResponse_Hostname (answer handle call w).1 = Some hostname ->
     outcome r = Returns (hostname, None)) /\
  ((exists x, outcome r = Returns x) <->
   is_Some (modpb.GetHostnameResponse_Hostname (answer handle call w).1)).
Proof.
  intros call r Hok. subst r. rewrite run_ModuleHostname. cbv zeta.
  fold call. cbn [outcome]. rewrite Hok.
  destruct (modpb.GetHostnameResponse_Hostname (answer handle call w).1) as [h|].
  - split; [discriminate|]. split; [now intros ? [= ->]|].
    split; [eauto | intros _; eauto].
  - split; [reflexivity|]. split; [discriminate|].
    split; [intros [x Hx]; discriminate | intros [x Hx]; discriminate].
Qed.

(** C4. AccessToken sends one GetAccessToken request to the
    "app_identity_service" service, whose Scope field is the list of scopes
    it was given; when the call succeeds it returns the response's access
    token, and as expiry the response's expiration time read as seconds
    since the Unix epoch, with a nil error. *)
Theorem AccessToken_request_and_result (scopes : slice string) w :
  let r := run handle (AccessToken scopes) w in
  exists req : pb.GetAccessTokenRequest,
    pb.GetAccessTokenRequest_Scope req = scopes /\
    events r = [existT _ (GetAccessToken_call req)] /\
    ((answer handle (GetAccessToken_call req) w).2 = None ->
     let res := (answer handle (GetAccessToken_call req) w).1 in
     outcome r =
       Returns (pb.GetAccessToken res, Unix (pb.GetExpirationTime res) 0, None) /\
     forall (token : string) (expiration : Z),
       pb.GetAccessTokenResponse_AccessToken res = Some token ->
       pb.GetAccessTokenResponse_ExpirationTime res = Some expiration ->
       outcome r = Returns (token, Unix expiration 0, None)).
Proof.
  intros r. exists {| pb.GetAccessTokenRequest_Scope := scopes |}.
  subst r. rewrite run_AccessToken. cbv zeta. cbn [outcome events].
  split; [reflexivity|]. split; [reflexivity|].
  intros Hok. rewrite Hok. split; [reflexivity|].
  intros token expiration Ht He.
  unfold pb.GetAccessToken, pb.GetExpirationTime. now rewrite Ht, He.
Qed.

(** C6. SignBytes sends one SignForApp request whose BytesToSign is its
    input and, when the call succeeds, returns the key name and signature
    bytes of the response with a nil error; ServiceAccount, when its call
    succeeds, returns the service-account name of the response with a nil
    error. *)
Theorem SignBytes_ServiceAccount_success w :
  (forall bytes : slice byte,
     let r := run handle (SignBytes bytes) w in
     exists req : pb.SignForAppRequest,
       pb.SignForAppRequest_BytesToSign req = bytes /\
       events r = [existT _ (SignForApp_call req)] /\
       ((answer handle (SignForApp_call req) w).2 = None ->
        let res := (answer handle (SignForApp_call req) w).1 in
        outcome r =
          Returns (pb.SignForApp_GetKeyName res, pb.GetSignatureBytes res, None))) /\
  ((answer handle GetServiceAccountName_call w).2 = None ->
   let res := (answer handle GetServiceAccountName_call w).1 in
   outcome (run handle ServiceAccount w) =
     Returns (pb.GetServiceAccountName res, None)).
Proof.
  split.
  - intros bytes r. exists {| pb.SignForAppRequest_BytesToSign := bytes |}.
    subst r. rewrite run_SignBytes. cbv zeta. cbn [outcome events].
    split; [reflexivity|]. split; [reflexivity|].
    intros Hok. now rewrite Hok.
  - intros Hok. rewrite run_ServiceAccount. cbv zeta. cbn [outcome].
    now rewrite Hok.
Qed.

(** ** The backend instance *)

(** C9. When the runtime reports the index -1, BackendInstance returns
    ("", -1) and has asked nothing else: the version ID is not consulted.
    Otherwise it returns that index with the version ID of the context cut
    before its first '.', or whole when it has none. *)
Theorem BackendInstance_name_and_index w :
  let index := answer handle internal_BackendInstance w in
  let r := run handle BackendInstance w in
  (index = -1 ->
   outcome r = Returns ("", -1) /\
   events r = [existT _ internal_BackendInstance]) /\
  (index <> -1 ->
   exists versionID name : string,
     outcome (run handle VersionID (after handle internal_BackendInstance w))
       = Returns versionID /\
     outcome r = Returns (name, index) /\
     name = before_dot versionID /\
     (~ has_dot versionID -> name = versionID) /\
     (has_dot versionID ->
      ~ has_dot name /\ exists rest : string, versionID = name ++ "." ++ rest)).
Proof.
  intros index r. subst r. rewrite run_BackendInstance. cbv zeta. fold index.
  split.
  - intros ->. split; reflexivity.
  - intros Hindex. destruct (Z.eqb_spec index (-1)) as [? | _]; [done|].
    rewrite run_VersionID. cbv zeta. cbn [outcome].
    eexists; eexists. split; [reflexivity|]. split; [reflexivity|].
    split; [reflexivity|]. split.
    + apply before_dot_full.
    + intros Hd. split; [apply before_dot_no_dot | now apply before_dot_split].
Qed.

(** ** Calls and effects *)

(** C5, as amended.  Each of ModuleHostname, AccessToken,
    PublicCertificates, ServiceAccount and SignBytes issues exactly one
    event per invocation, a [Call] with its fixed service and method names,
    whatever that call answers, an error included: there is no second
    attempt.  The other functions of the file make no [Call]. *)
Theorem rpc_functions_call_exactly_once :
  (forall w module version instance, exists req,
     events (run handle (ModuleHostname module version instance) w) =
     [existT _ (Call "modules" "GetHostname"
                  GetHostnameRequest GetHostnameResponse
                  req modpb.GetHostnameResponse_zero None)]) /\
  (forall w scopes, exists req,
     events (run handle (AccessToken scopes) w) =
     [existT _ (Call "app_identity_service" "GetAccessToken"
                  GetAccessTokenRequest GetAccessTokenResponse
                  req pb.GetAccessTokenResponse_zero None)]) /\
  (forall w, exists req,
     events (run handle PublicCertificates w) =
     [existT _ (Call "app_identity_service" "GetPublicCertificatesForApp"
                  GetPublicCertificateForAppRequest
                  GetPublicCertificateForAppResponse
                  req pb.GetPublicCertificateForAppResponse_zero None)]) /\
  (forall w, exists req,
     events (run handle ServiceAccount w) =
     [existT _ (Call "app_identity_service" "GetServiceAccountName"
                  GetServiceAccountNameRequest GetServiceAccountNameResponse
                  req pb.GetServiceAccountNameResponse_zero None)]) /\
  (forall w bytes, exists req,
     events (run handle (SignBytes bytes) w) =
     [existT _ (Call "app_identity_service" "SignForApp"
                  SignForAppRequest SignForAppResponse
                  req pb.SignForAppResponse_zero None)]) /\
  (forall module version instance,
     single_Call handle (ModuleHostname module version instance)) /\
  (forall scopes, single_Call handle (AccessToken scopes)) /\
  single_Call handle PublicCertificates /\
  single_Call handle ServiceAccount /\
  (forall bytes, single_Call handle (SignBytes bytes)) /\
  no_Call handle AppID /\
  no_Call handle BackendInstance /\
  (forall name index, no_Call handle (BackendHostname name index)) /\
  no_Call handle DefaultVersionHostname /\
  no_Call handle ModuleName /\
  no_Call handle VersionID /\
  no_Call handle InstanceID /\
  no_Call handle Datacenter /\
  no_Call handle ServerSoftware /\
  no_Call handle RequestID.
Proof.
  repeat split; unfold single_Call, no_Call, calls; intros;
    rewrite ?run_ModuleHostname, ?run_AccessToken, ?run_PublicCertificates,
      ?run_ServiceAccount, ?run_SignBytes, ?run_BackendInstance;
    cbv zeta; try (eexists; reflexivity); try reflexivity.
  destruct (_ =? -1); reflexivity.
Qed.

(** C7, as amended.  [init] registers the two tables of error-code names,
    under "app_identity_service" and "modules", and does nothing else; no
    other function of the file changes that process-wide table.  All that
    each of the five RPC functions issues is its one [Call]; the remaining
    functions make no [Call]. *)
Theorem errorCodeMaps_changed_by_init_only :
  (forall (app_identity modules : gmap Z string) w,
     let r := run handle (init app_identity modules) w in
     errorCodeMaps (final r) =
       <["modules" := modules]>
         (<["app_identity_service" := app_identity]> (errorCodeMaps w)) /\
     events r =
       [existT _ (internal_RegisterErrorCodeMap "app_identity_service" app_identity);
        existT _ (internal_RegisterErrorCodeMap "modules" modules)]) /\
  (forall module version instance,
     only_effect_single_Call handle (ModuleHostname module version instance) /\
     preserves_errorCodeMaps handle (ModuleHostname module version instance)) /\
  (forall scopes,
     only_effect_single_Call handle (AccessToken scopes) /\
     preserves_errorCodeMaps handle (AccessToken scopes)) /\
  (only_effect_single_Call handle PublicCertificates /\
   preserves_errorCodeMaps handle PublicCertificates) /\
  (only_effect_single_Call handle ServiceAccount /\
   preserves_errorCodeMaps handle ServiceAccount) /\
  (forall bytes,
     only_effect_single_Call handle (SignBytes bytes) /\
     preserves_errorCodeMaps handle (SignBytes bytes)) /\
  (no_Call handle AppID /\ preserves_errorCodeMaps handle AppID) /\
  (no_Call handle BackendInstance /\ preserves_errorCodeMaps handle BackendInstance) /\
  (forall name index,
     no_Call handle (BackendHostname name index) /\
     preserves_errorCodeMaps handle (BackendHostname name index)) /\
  (no_Call handle DefaultVersionHostname /\
   preserves_errorCodeMaps handle DefaultVersionHostname) /\
  (no_Call handle ModuleName /\ preserves_errorCodeMaps handle ModuleName) /\
  (no_Call handle VersionID /\ preserves_errorCodeMaps handle VersionID) /\
  (no_Call handle InstanceID /\ preserves_errorCodeMaps handle InstanceID) /\
  (no_Call handle Datacenter /\ preserves_errorCodeMaps handle Datacenter) /\
  (no_Call handle ServerSoftware /\ preserves_errorCodeMaps handle ServerSoftware) /\
  (no_Call handle RequestID /\ preserves_errorCodeMaps handle RequestID).
Proof.
  repeat split;
    unfold only_effect_single_Call, preserves_errorCodeMaps, no_Call, calls;
    intros;
    rewrite ?run_ModuleHostname, ?run_AccessToken, ?run_PublicCertificates,
      ?run_ServiceAccount, ?run_SignBytes, ?run_BackendInstance;
    cbv zeta; try (eexists; split; [|reflexivity]; reflexivity);
    try reflexivity;
    destruct (_ =? -1); reflexivity.
Qed.

End Properties.

(** ** The properties on the example platforms *)

Lemma Call_error_returned_unchanged_witness :
  Outcome_map snd
    (outcome (run Example.failing (ModuleHostname "backend" "" "3") Example.world))
    = Returns (Some "deadline exceeded") /\
  Outcome_map snd
    (outcome (run Example.failing (AccessToken (Some ["scope-a"; "scope-b"]))
                Example.world))
    = Returns (Some "deadline exceeded") /\
  Outcome_map snd (outcome (run Example.failing PublicCertificates Example.world))
    = Returns (Some "deadline exceeded") /\
  Outcome_map snd (outcome (run Example.failing ServiceAccount Example.world))
    = Returns (Some "deadline exceeded") /\
  Outcome_map snd
    (outcome (run Example.failing (SignBytes (Some [x68; x69]%byte)) Example.world))
    = Returns (Some "deadline exceeded").
Proof.
  destruct (Call_error_returned_unchanged Example.failing Example.world
              "deadline exceeded") as (H1 & H2 & H3 & H4 & H5).
  split; [apply H1; reflexivity|]. split; [apply H2; reflexivity|].
  split; [apply H3; reflexivity|]. split; [apply H4; reflexivity|].
  apply H5; reflexivity.
Defined.

Lemma Call_error_zero_results_witness :
  outcome (run Example.failing (ModuleHostname "backend" "" "3") Example.world)
    = Returns ("", Some "deadline exceeded") /\
  outcome (run Example.failing (AccessToken (Some ["scope-a"; "scope-b"]))
             Example.world)
    = Returns ("", Time_zero, Some "deadline exceeded") /\
  outcome (run Example.failing PublicCertificates Example.world)
    = Returns (nil_slice, Some "deadline exceeded") /\
  outcome (run Example.failing ServiceAccount Example.world)
    = Returns ("", Some "deadline exceeded") /\
  outcome (run Example.failing (SignBytes (Some [x68; x69]%byte)) Example.world)
    = Returns ("", nil_slice, Some "deadline exceeded").
Proof.
  destruct (Call_error_zero_results Example.failing Example.world
              "deadline exceeded") as (H1 & H2 & H3 & H4 & H5).
  split; [apply H1; reflexivity|]. split; [apply H2; reflexivity|].
  split; [apply H3; reflexivity|]. split; [apply H4; reflexivity|].
  apply H5; reflexivity.
Defined.

Lemma PublicCertificates_records_witness :
  exists cs : slice Certificate,
    outcome (run Example.working PublicCertificates Example.world)
      = Returns (cs, None) /\
    len cs = 3%nat /\
    elems cs = map certificate_of Example.certificates /\
    forall (i : nat) (pc : option pb.PublicCertificate),
      Example.certificates !! i = Some pc ->
      exists c : Certificate,
        elems cs !! i = Some c /\
        KeyName c = pb.GetKeyName pc /\
        Data c = bytes_of_string (pb.GetX509CertificatePem pc).
Proof.
  exact (PublicCertificates_records Example.working Example.world eq_refl).
Defined.

Lemma ModuleHostname_request_and_result_witness :
  outcome (run Example.working (ModuleHostname "backend" "" "3") Example.world)
    = Returns ("v1.mod.app.appspot.com", None).
Proof.
  destruct (ModuleHostname_request_and_result Example.working
              "backend" "" "3" Example.world) as (_ & _ & _ & _ & H).
  apply H; reflexivity.
Defined.

Lemma ModuleHostname_nil_Hostname_panics_witness :
  outcome (run Example.unfilled (ModuleHostname "backend" "" "3") Example.world)
    = Panics nil_dereference.
Proof.
  destruct (ModuleHostname_nil_Hostname_panics Example.unfilled
              "backend" "" "3" Example.world eq_refl) as (H & _).
  apply H. reflexivity.
Defined.

Lemma AccessToken_request_and_result_witness :
  outcome (run Example.working (AccessToken (Some ["scope-a"; "scope-b"]))
             Example.world)
    = Returns ("ya29.token", Unix 1446336000 0, None).
Proof.
  destruct (AccessToken_request_and_result Example.working
              (Some ["scope-a"; "scope-b"]) Example.world)
    as ([scope] & Hscope & _ & H).
  cbn in Hscope. subst scope.
  destruct (H eq_refl) as (_ & Hfields).
  apply Hfields; reflexivity.
Defined.

Lemma SignBytes_ServiceAccount_success_witness :
  outcome (run Example.working (SignBytes (Some [x68; x69]%byte)) Example.world)
    = Returns ("key-1", Some [x01; x02]%byte, None) /\
  outcome (run Example.working ServiceAccount Example.world)
    = Returns ("app@appspot.gserviceaccount.com", None).
Proof.
  destruct (SignBytes_ServiceAccount_success Example.working Example.world)
    as (Hsign & Haccount).
  split.
  - destruct (Hsign (Some [x68; x69]%byte)) as ([bytes] & Hbytes & _ & H).
    cbn in Hbytes. subst bytes. apply H. reflexivity.
  - apply Haccount. reflexivity.
Defined.

Lemma BackendInstance_name_and_index_witness :
  (outcome (run Example.frontend BackendInstance Example.world) = Returns ("", -1) /\
   events (run Example.frontend BackendInstance Example.world)
     = [existT _ internal_BackendInstance]) /\
  exists versionID name : string,
    outcome (run Example.working VersionID
               (after Example.working internal_BackendInstance Example.world))
      = Returns versionID /\
    outcome (run Example.working BackendInstance Example.world) = Returns (name, 3) /\
    name = before_dot versionID /\
    (~ has_dot versionID -> name = versionID) /\
    (has_dot versionID ->
     ~ has_dot name /\ exists rest : string, versionID = name ++ "." ++ rest).
Proof.
  split.
  - destruct (BackendInstance_name_and_index Example.frontend Example.world)
      as (H & _).
    apply H. reflexivity.
  - destruct (BackendInstance_name_and_index Example.working Example.world)
      as (_ & H).
    apply H. discriminate.
Defined.

(** C5, as stated: "every function in the module invokes a single RPC call
    through the injected context".  InstanceID, which is not even handed a
    context, makes none. *)
Lemma InstanceID_makes_no_Call : ~ single_Call Example.working InstanceID.
Proof.
  intros H. specialize (H Example.world). discriminate H.
Qed.

(** C7, as stated: "every accessor's only effect is its single call through
    the injected context".  All Datacenter does is ask the runtime
    package. *)
Lemma Datacenter_makes_no_single_Call :
  ~ only_effect_single_Call Example.working Datacenter.
Proof.
  intros H. destruct (H Example.world) as (ev & Hcall & Hev).
  cbn in Hev. injection Hev as <-. discriminate Hcall.
Qed.

(** C3, as stated: "on success returns the Hostname field decoded from the
    response".  On a platform whose call succeeds and leaves Hostname
    unset, ModuleHostname returns nothing at all: the dereference of line
    74 panics. *)
Lemma ModuleHostname_success_without_Hostname_does_not_return :
  (answer Example.unfilled
     (GetHostname_call (hostname_request "backend" "" "3")) Example.world).2 = None /\
  ~ exists result : string * error,
      outcome (run Example.unfilled (ModuleHostname "backend" "" "3") Example.world)
        = Returns result.
Proof.
  split; [reflexivity|]. intros [result H]. discriminate H.
Qed.

(** ** Further properties of the functions *)

Lemma set_iff_nonempty_inj (a b : string) :
  set_iff_nonempty a = set_iff_nonempty b -> a = b.
Proof.
  unfold set_iff_nonempty. repeat case_decide; congruence.
Qed.

Lemma fold_append_certificate_nil (l : list (option pb.PublicCertificate))
    (cs : slice Certificate) :
  fold_left append_certificate l cs = nil_slice <-> l = [] /\ cs = nil_slice.
Proof.
  revert cs. induction l as [|pc l IH]; intros cs; simpl.
  - split; [now intros -> | now intros [_ ->]].
  - rewrite IH. split; intros [H1 H2]; discriminate.
Qed.

Lemma before_dot_prefix (s : string) :
  exists rest : string, s = before_dot s ++ rest.
Proof.
  induction s as [|c s [rest IH]]; simpl.
  - now exists "".
  - destruct (Ascii.eqb c ".").
    + now exists (String c s).
    + exists rest. rewrite IH at 1. reflexivity.
Qed.

Lemma before_dot_append (x y : string) :
  Index x "." = -1 -> before_dot (x ++ "." ++ y) = x.
Proof.
  induction x as [|c x IH].
  - reflexivity.
  - rewrite Index_dot_cons.
    change (String c x ++ "." ++ y) with (String c (x ++ "." ++ y)).
    cbn [before_dot].
    destruct (Ascii.eqb c "."); [discriminate|].
    destruct (Z.eqb_spec (Index x ".") (-1)) as [Hx | Hx].
    + intros _. now rewrite IH.
    + pose proof (Index_dot_range x). lia.
Qed.

Section MoreProperties.

Context {Err Request S : Type}.
Variable handle : forall X : Type, @Event Err Request X -> S -> X * S.

Implicit Types (w : World S).

(** X1. BackendInstance never panics: the slice [name[:i]] is always in
    range.  It returns the index the runtime reported, with a name that has
    no '.' and is a prefix of what VersionID returns right after the index
    query. *)
Theorem BackendInstance_always_returns w :
  exists name rest : string,
    outcome (run handle BackendInstance w)
      = Returns (name, answer handle internal_BackendInstance w) /\
    ~ has_dot name /\
    outcome (run handle VersionID (after handle internal_BackendInstance w))
      = Returns (name ++ rest).
Proof.
  rewrite run_BackendInstance, run_VersionID. cbv zeta. cbn [outcome].
  destruct (Z.eqb_spec (answer handle internal_BackendInstance w) (-1)).
  - exists "". eexists. cbn [outcome].
    split; [reflexivity|]. split; [apply not_has_dot_empty | reflexivity].
  - match goal with
    | |- context [before_dot ?v] =>
        destruct (before_dot_prefix v) as [rest Hrest];
        exists (before_dot v), rest
    end.
    cbn [outcome]. split; [reflexivity|].
    split; [apply before_dot_no_dot | now rewrite <- Hrest].
Qed.

(** X2. On a backend instance whose version ID has the form X.Y, with no
    '.' in X, the name BackendInstance returns is X. *)
Theorem BackendInstance_name_of_X_Y w (x y : string) :
  answer handle internal_BackendInstance w <> -1 ->
  Index x "." = -1 ->
  outcome (run handle VersionID (after handle internal_BackendInstance w))
    = Returns (x ++ "." ++ y) ->
  outcome (run handle BackendInstance w)
    = Returns (x, answer handle internal_BackendInstance w).
Proof.
  intros Hindex Hx. rewrite run_BackendInstance, run_VersionID. cbv zeta.
  destruct (Z.eqb_spec (answer handle internal_BackendInstance w) (-1));
    [done|].
  cbn [outcome]. intros [= ->]. now rewrite before_dot_append.
Qed.

(** X3. On a backend instance, what BackendInstance asks after the index
    query is exactly what VersionID asks, once, and it leaves the world
    VersionID leaves. *)
Theorem BackendInstance_consults_VersionID_once w :
  answer handle internal_BackendInstance w <> -1 ->
  let w1 := after handle internal_BackendInstance w in
  events (run handle BackendInstance w)
    = existT _ internal_BackendInstance :: events (run handle VersionID w1) /\
  final (run handle BackendInstance w) = final (run handle VersionID w1).
Proof.
  intros Hindex w1. rewrite run_BackendInstance. cbv zeta.
  destruct (Z.eqb_spec (answer handle internal_BackendInstance w) (-1));
    [done|].
  subst w1. rewrite run_VersionID. split; reflexivity.
Qed.

(** X4. AccessToken, PublicCertificates, ServiceAccount and SignBytes never
    panic, whatever the response holds, and the error they return is the
    error of the call in every case: nil exactly when the call succeeded. *)
Theorem rpc_error_is_the_call_error w :
  (forall scopes,
     Outcome_map snd (outcome (run handle (AccessToken scopes) w)) =
     Returns (answer handle
                (GetAccessToken_call {| pb.GetAccessTokenRequest_Scope := scopes |})
                w).2) /\
  Outcome_map snd (outcome (run handle PublicCertificates w)) =
    Returns (answer handle GetPublicCertificatesForApp_call w).2 /\
  Outcome_map snd (outcome (run handle ServiceAccount w)) =
    Returns (answer handle GetServiceAccountName_call w).2 /\
  (forall bytes,
     Outcome_map snd (outcome (run handle (SignBytes bytes) w)) =
     Returns (answer handle
                (SignForApp_call {| pb.SignForAppRequest_BytesToSign := bytes |})
                w).2).
Proof.
  split; [intros scopes|split; [|split; [|intros bytes]]];
    rewrite ?run_AccessToken, ?run_PublicCertificates, ?run_ServiceAccount,
      ?run_SignBytes;
    cbv zeta; cbn [outcome];
    match goal with
    | |- context [(answer handle ?call w).2] =>
        destruct ((answer handle call w).2); reflexivity
    end.
Qed.

(** X5. ModuleHostname panics exactly when the call succeeded and left
    Hostname unset, and then on the nil dereference; a failed call never
    makes it panic, and whenever it returns, its error is the call's. *)
Theorem ModuleHostname_panics_exactly_when (module version instance : string) w :
  let call := GetHostname_call (hostname_request module version instance) in
  let r := run handle (ModuleHostname module version instance) w in
  ((exists p, outcome r = Panics p) <->
   (answer handle call w).2 = None /\
   modpb.GetHostnameResponse_Hostname (answer handle call w).1 = None) /\
  (forall p, outcome r = Panics p -> p = nil_dereference) /\
  (forall hostname err,
     outcome r = Returns (hostname, err) -> err = (answer handle call w).2).
Proof.
  intros call r. subst r. rewrite run_ModuleHostname. cbv zeta. fold call.
  cbn [outcome].
  destruct ((answer handle call w).2) as [e|];
    [|destruct (modpb.GetHostnameResponse_Hostname (answer handle call w).1)].
  - split; [split; [intros [p Hp]; discriminate | intros [H _]; discriminate]|].
    split; [discriminate | now intros ? ? [= _ <-]].
  - split; [split; [intros [p Hp]; discriminate | intros [_ H]; discriminate]|].
    split; [discriminate | now intros ? ? [= _ <-]].
  - split; [split; [auto | eauto]|].
    split; [now intros ? [= <-] | discriminate].
Qed.

(** X6. A successful call that leaves fields of the response unset is not
    an error: AccessToken then returns the empty token and the Unix epoch
    as expiry, ServiceAccount the empty name, SignBytes the empty key name
    with the (possibly nil) signature of the response, each with a nil
    error. *)
Theorem success_with_unset_fields w :
  (forall scopes,
     let a := answer handle
                (GetAccessToken_call {| pb.GetAccessTokenRequest_Scope := scopes |})
                w in
     a.2 = None ->
     pb.GetAccessTokenResponse_AccessToken a.1 = None ->
     pb.GetAccessTokenResponse_ExpirationTime a.1 = None ->
     outcome (run handle (AccessToken scopes) w) = Returns ("", Unix 0 0, None)) /\
  (let a := answer handle GetServiceAccountName_call w in
   a.2 = None ->
   pb.GetServiceAccountNameResponse_ServiceAccountName a.1 = None ->
   outcome (run handle ServiceAccount w) = Returns ("", None)) /\
  (forall bytes,
     let a := answer handle
                (SignForApp_call {| pb.SignForAppRequest_BytesToSign := bytes |})
                w in
     a.2 = None ->
     pb.SignForAppResponse_KeyName a.1 = None ->
     outcome (run handle (SignBytes bytes) w)
       = Returns ("", pb.SignForAppResponse_SignatureBytes a.1, None)).
Proof.
  split; [intros scopes a Hok Ht He | split; [intros a Hok Hn | intros bytes a Hok Hk]];
    rewrite ?run_AccessToken, ?run_ServiceAccount, ?run_SignBytes;
    cbv zeta; cbn [outcome]; fold a; rewrite Hok.
  - unfold pb.GetAccessToken, pb.GetExpirationTime. now rewrite Ht, He.
  - unfold pb.GetServiceAccountName. now rewrite Hn.
  - unfold pb.SignForApp_GetKeyName, pb.GetSignatureBytes. now rewrite Hk.
Qed.

(** X7. After a successful call, the slice PublicCertificates returns is
    nil exactly when the response lists no certificate: no certificates and
    a nil error come with a nil slice, one certificate or more with a
    non-nil one. *)
Theorem PublicCertificates_nil_iff_no_entry w :
  let res := answer handle GetPublicCertificatesForApp_call w in
  let entries :=
    elems (pb.GetPublicCertificateForAppResponse_PublicCertificateList res.1) in
  res.2 = None ->
  exists cs : slice Certificate,
    outcome (run handle PublicCertificates w) = Returns (cs, None) /\
    (cs = nil_slice <-> entries = []).
Proof.
  intros res entries Hok.
  exists (fold_left append_certificate entries nil_slice). split.
  - rewrite run_PublicCertificates. cbv zeta. cbn [outcome].
    fold res. now rewrite Hok.
  - rewrite fold_append_certificate_nil. tauto.
Qed.

(** X8. Nothing of a listed certificate is lost: reading back the key name
    and the string of the Data bytes of each returned record gives the key
    name and the PEM string of the corresponding entry of the response. *)
Theorem PublicCertificates_round_trip w :
  let res := answer handle GetPublicCertificatesForApp_call w in
  let entries :=
    elems (pb.GetPublicCertificateForAppResponse_PublicCertificateList res.1) in
  res.2 = None ->
  exists cs : slice Certificate,
    outcome (run handle PublicCertificates w) = Returns (cs, None) /\
    map (fun c => (KeyName c, string_of_bytes (Data c))) (elems cs) =
    map (fun pc => (pb.GetKeyName pc, pb.GetX509CertificatePem pc)) entries.
Proof.
  intros res entries Hok.
  exists (fold_left append_certificate entries nil_slice). split.
  - rewrite run_PublicCertificates. cbv zeta. cbn [outcome].
    fold res. now rewrite Hok.
  - rewrite fold_append_certificate. cbn [elems nil_slice app].
    rewrite map_map. apply map_ext. intros pc.
    unfold certificate_of, string_of_bytes, bytes_of_string.
    cbn [KeyName Data elems].
    now rewrite string_of_list_byte_of_string.
Qed.

(** X9. The request ModuleHostname sends determines its arguments: two
    invocations that issue the same events were given the same module,
    version and instance. *)
Theorem ModuleHostname_request_determines_arguments
    (module version instance module' version' instance' : string) w w' :
  events (run handle (ModuleHostname module version instance) w) =
  events (run handle (ModuleHostname module' version' instance') w') ->
  module = module' /\ version = version' /\ instance = instance'.
Proof.
  rewrite !run_ModuleHostname. cbv zeta. cbn [events]. intros H.
  apply (f_equal (map sent_GetHostnameRequest)) in H. cbn in H.
  injection H as Hm Hv Hi.
  auto using set_iff_nonempty_inj.
Qed.

(** X10. After [init], the table of error-code names holds the two tables
    under "app_identity_service" and "modules" and the entry of every other
    service is as before; running [init] again changes nothing. *)
Theorem init_registers_and_is_idempotent (app_identity modules : gmap Z string) w :
  let r := run handle (init app_identity modules) w in
  errorCodeMaps (final r) !! "app_identity_service" = Some app_identity /\
  errorCodeMaps (final r) !! "modules" = Some modules /\
  (forall service : string,
     service <> "app_identity_service" -> service <> "modules" ->
     errorCodeMaps (final r) !! service = errorCodeMaps w !! service) /\
  errorCodeMaps (final (run handle (init app_identity modules) (final r)))
    = errorCodeMaps (final r).
Proof.
  intros r. subst r. cbn.
  split; [now rewrite lookup_insert_ne, lookup_insert_eq|].
  split; [now rewrite lookup_insert_eq|].
  split.
  - intros service H1 H2. now rewrite !lookup_insert_ne.
  - apply map_eq. intros service.
    destruct (decide (service = "modules")) as [-> | H2];
      [now rewrite !lookup_insert_eq|].
    rewrite (lookup_insert_ne _ "modules") by done.
    destruct (decide (service = "app_identity_service")) as [-> | H1].
    + rewrite lookup_insert_eq.
      now rewrite (lookup_insert_ne _ "modules"), lookup_insert_eq.
    + now rewrite !lookup_insert_ne.
Qed.

End MoreProperties.

(** ** The further properties on the example platforms *)

Lemma BackendInstance_name_of_X_Y_witness :
  outcome (run Example.working BackendInstance Example.world) = Returns ("v1", 3).
Proof.
  apply (BackendInstance_name_of_X_Y Example.working Example.world "v1" "234").
  - vm_compute. discriminate.
  - reflexivity.
  - reflexivity.
Defined.

Lemma BackendInstance_consults_VersionID_once_witness :
  events (run Example.working BackendInstance Example.world)
    = existT _ internal_BackendInstance
      :: events (run Example.working VersionID
                   (after Example.working internal_BackendInstance Example.world)) /\
  final (run Example.working BackendInstance Example.world)
    = final (run Example.working VersionID
               (after Example.working internal_BackendInstance Example.world)).
Proof.
  apply (BackendInstance_consults_VersionID_once Example.working Example.world).
  vm_compute. discriminate.
Defined.

Lemma ModuleHostname_panics_exactly_when_witness :
  exists p : panic,
    outcome (run Example.unfilled (ModuleHostname "backend" "" "3") Example.world)
      = Panics p.
Proof.
  destruct (ModuleHostname_panics_exactly_when Example.unfilled
              "backend" "" "3" Example.world) as ((_ & H) & _).
  apply H. split; reflexivity.
Defined.

Lemma success_with_unset_fields_witness :
  outcome (run Example.unfilled (AccessToken None) Example.world)
    = Returns ("", Unix 0 0, None) /\
  outcome (run Example.unfilled ServiceAccount Example.world) = Returns ("", None) /\
  outcome (run Example.unfilled (SignBytes (Some [x68; x69]%byte)) Example.world)
    = Returns ("", nil_slice, None).
Proof.
  destruct (success_with_unset_fields Example.unfilled Example.world)
    as (H1 & H2 & H3).
  split; [apply H1; reflexivity|]. split; [apply H2; reflexivity|].
  apply (H3 (Some [x68; x69]%byte)); reflexivity.
Defined.

Lemma PublicCertificates_nil_iff_no_entry_witness :
  exists cs : slice Certificate,
    outcome (run Example.working PublicCertificates Example.world)
      = Returns (cs, None) /\
    (cs = nil_slice <-> Example.certificates = []).
Proof.
  exact (PublicCertificates_nil_iff_no_entry Example.working Example.world eq_refl).
Defined.

Lemma PublicCertificates_round_trip_witness :
  exists cs : slice Certificate,
    outcome (run Example.working PublicCertificates Example.world)
      = Returns (cs, None) /\
    map (fun c => (KeyName c, string_of_bytes (Data c))) (elems cs) =
    [("key-1", "PEM-1"); ("", ""); ("key-2", "")].
Proof.
  exact (PublicCertificates_round_trip Example.working Example.world eq_refl).
Defined.

Lemma ModuleHostname_request_determines_arguments_witness :
  "backend" = "backend" /\ "" = "" /\ "3" = "3".
Proof.
  apply (ModuleHostname_request_determines_arguments Example.working
           "backend" "" "3" "backend" "" "3" Example.world Example.world).
  reflexivity.
Defined.

Lemma init_registers_and_is_idempotent_witness :
  errorCodeMaps
    (final (run Example.working
              (init {[ 1000 := "UNKNOWN_SCOPE" ]} {[ 1 := "INVALID_MODULE" ]})
              Example.world))
    !! "datastore_v3" = errorCodeMaps Example.world !! "datastore_v3".
Proof.
  destruct (init_registers_and_is_idempotent Example.working
              {[ 1000 := "UNKNOWN_SCOPE" ]} {[ 1 := "INVALID_MODULE" ]}
              Example.world) as (_ & _ & H & _).
  apply H; discriminate.
Defined.
